(** * pytorch_lightning.utilities.data

    A shallow embedding of [src/pytorch_lightning/utilities/data.py]:
    [extract_batch_size], [has_iterable_dataset], [has_len] and [get_len],
    together with the part of the Python runtime they rely on (exceptions
    and [try]/[except], [len], [next(iter(...), default)], attribute lookup)
    and the two collaborators they call ([torch.Tensor.size] and
    [rank_zero_warn]). *)

From Stdlib Require Import List String ZArith Bool Arith Lia.
From Equations Require Import Equations.
Import ListNotations.

Local Open Scope string_scope.

(** ** Python exceptions *)

(** An exception instance carries the names of the classes of its type's
    method resolution order (most derived first) and its message.  An
    [except C] clause selects on [isinstance(e, C)], that is on membership
    of [C] in that list. *)
Record exn : Type := mkExn {
  exn_mro : list string;
  exn_msg : string
}.

Definition isinstance_exn (e : exn) (cls : string) : bool :=
  existsb (String.eqb cls) (exn_mro e).

Definition ValueError (msg : string) : exn :=
  mkExn ["ValueError"; "Exception"; "BaseException"] msg.

Definition TypeError (msg : string) : exn :=
  mkExn ["TypeError"; "Exception"; "BaseException"] msg.

Definition NotImplementedError (msg : string) : exn :=
  mkExn ["NotImplementedError"; "RuntimeError"; "Exception"; "BaseException"] msg.

Definition IndexError (msg : string) : exn :=
  mkExn ["IndexError"; "LookupError"; "Exception"; "BaseException"] msg.

Definition AttributeError (msg : string) : exn :=
  mkExn ["AttributeError"; "Exception"; "BaseException"] msg.

Definition RuntimeError (msg : string) : exn :=
  mkExn ["RuntimeError"; "Exception"; "BaseException"] msg.

(** The outcome of evaluating a Python expression: a value or a raised
    exception. *)
Inductive result (A : Type) : Type :=
| Ok (a : A)
| Raise (e : exn).
Arguments Ok {A} a.
Arguments Raise {A} e.

(** ** The process state the functions read and write *)

(** [rank] is the rank of the current process ([rank_zero_only.rank]),
    [len_calls] counts the length queries made so far on the data loader
    under inspection, and [warnings] is the list of messages handed to
    [warnings.warn] in this process, oldest first. *)
Record world : Type := mkWorld {
  rank : nat;
  len_calls : nat;
  warnings : list string
}.

(** Computations that read and write the process state and may raise. *)
Definition M (A : Type) : Type := world -> result A * world.

Definition ret {A} (a : A) : M A := fun w => (Ok a, w).

Definition raise {A} (e : exn) : M A := fun w => (Raise e, w).

Definition bind {A B} (m : M A) (k : A -> M B) : M B :=
  fun w =>
    match m w with
    | (Ok a, w') => k a w'
    | (Raise e, w') => (Raise e, w')
    end.

Declare Scope py_scope.
Delimit Scope py_scope with py.
Notation "x <- m ;; k" := (bind m (fun x => k))
  (at level 61, m at next level, right associativity) : py_scope.
Notation "m ;;; k" := (bind m (fun _ => k))
  (at level 61, right associativity) : py_scope.
Local Open Scope py_scope.

(** [try: body except C1: h1 except C2: h2 ...]: the first clause whose
    class the exception is an instance of handles it; an exception raised
    by a handler is not offered to the later clauses. *)
Fixpoint find_handler {A} (e : exn) (handlers : list (string * M A))
  : option (M A) :=
  match handlers with
  | [] => None
  | (cls, h) :: rest =>
      if isinstance_exn e cls then Some h else find_handler e rest
  end.

Definition try_except {A} (body : M A) (handlers : list (string * M A)) : M A :=
  fun w =>
    match body w with
    | (Ok a, w') => (Ok a, w')
    | (Raise e, w') =>
        match find_handler e handlers with
        | Some h => h w'
        | None => (Raise e, w')
        end
    end.

(** ** torch.utils.data *)

(** The runtime type of a dataset object, as far as
    [isinstance(_, IterableDataset)] distinguishes it. *)
Inductive Dataset : Type :=
| IterableDataset
| MapDataset.

Definition isinstance_IterableDataset (d : Dataset) : bool :=
  match d with
  | IterableDataset => true
  | MapDataset => false
  end.

(** A data-loading object.  [dl_len k] is the outcome of the length query
    [len(dataloader)] when [k] queries were made before it: an object of a
    type without [__len__] answers with a [TypeError], a [__len__] may
    raise, and the answer may change from one query to the next.
    [dl_dataset] is the [dataset] attribute, [None] when the object has no
    such attribute. *)
Record DataLoader : Type := mkDataLoader {
  dl_len : nat -> result nat;
  dl_dataset : option Dataset
}.

(** [len(dataloader)] *)
Definition py_len (dataloader : DataLoader) : M nat :=
  fun w =>
    (dl_len dataloader (len_calls w),
     mkWorld (rank w) (S (len_calls w)) (warnings w)).

(** [hasattr(dataloader, "dataset")] *)
Definition hasattr_dataset (dataloader : DataLoader) : bool :=
  match dl_dataset dataloader with
  | Some _ => true
  | None => false
  end.

(** [dataloader.dataset] *)
Definition getattr_dataset (dataloader : DataLoader) : M Dataset :=
  match dl_dataset dataloader with
  | Some d => ret d
  | None => raise (AttributeError "object has no attribute 'dataset'")
  end.

(** ** pytorch_lightning.utilities.rank_zero_warn *)

(** Modelled from the spec: [rank_zero_warn] is defined in
    [pytorch_lightning/utilities/distributed.py], which is not among the
    sources.  The spec describes it as emitting a non-fatal warning that is
    visible only on the designated primary process: the message reaches
    [warnings.warn] on rank zero and is dropped on every other rank. *)
Definition rank_zero_warn (msg : string) : M unit :=
  fun w =>
    if Nat.eqb (rank w) 0
    then (Ok tt, mkWorld (rank w) (len_calls w) (warnings w ++ [msg]))
    else (Ok tt, w).

(** ** Length availability *)

Definition zero_length_msg : string :=
  "`Dataloader` returned 0 length. Please make sure that it returns at least 1 batch".

Definition iterable_len_msg : string :=
  "Your `IterableDataset` has `__len__` defined."
  ++ " In combination with multi-process data loading (when num_workers > 1),"
  ++ " `__len__` could be inaccurate if each worker is not configured independently"
  ++ " to avoid having duplicate data.".

(** [has_iterable_dataset]: [hasattr(...) and isinstance(dataloader.dataset, ...)];
    the attribute is read only when [hasattr] answered true. *)
Definition has_iterable_dataset (dataloader : DataLoader) : M bool :=
  if hasattr_dataset dataloader
  then d <- getattr_dataset dataloader ;; ret (isinstance_IterableDataset d)
  else ret false.

Definition has_len (dataloader : DataLoader) : M bool :=
  has_len' <-
    try_except
      (n <- py_len dataloader ;;
       (if Nat.eqb n 0 then raise (ValueError zero_length_msg) else ret tt) ;;;
       ret true)
      [("TypeError", ret false);
       ("NotImplementedError", ret false)] ;;
  warn <- (if has_len' : bool then has_iterable_dataset dataloader else ret false) ;;
  (if warn : bool then rank_zero_warn iterable_len_msg else ret tt) ;;;
  ret has_len'.

(** The value [get_len] returns: an [int] or [float("inf")]. *)
Inductive length_value : Type :=
| Finite (n : nat)
| PosInf.

Definition get_len (dataloader : DataLoader) : M length_value :=
  b <- has_len dataloader ;;
  if b : bool
  then n <- py_len dataloader ;; ret (Finite n)
  else ret PosInf.

(** ** Batches *)

(** The values [extract_batch_size] tells apart, one constructor per arm of
    its [isinstance] dispatch (the source's [BType] and what falls outside
    of it):
    - [Tensor shape]: a [torch.Tensor] with the given dimensions, [[]] for
      a zero-dimensional (scalar) tensor;
    - [Str s]: a [str];
    - [Dict items]: a [dict] (or a subclass of it), items in insertion
      order;
    - [Mapping items]: a [Mapping] whose type does not derive from [dict]
      ([types.MappingProxyType], [collections.UserDict], ...), items in
      iteration order;
    - [Iterable elems]: any other object with [__iter__] (list, tuple, set,
      generator, ...), given by the sequence its iterator yields;
    - [Int], [NoneValue], [Object]: values without [__iter__]. *)
#[warnings="-register-all"]
Inductive value : Type :=
| Tensor (shape : list nat)
| Str (s : string)
| Dict (items : list (value * value))
| Mapping (items : list (value * value))
| Iterable (elems : list value)
| Int (z : Z)
| NoneValue
| Object (type_name : string).

Definition no_dimensions_msg : string :=
  "Dimension specified as 0 but tensor has no dimensions".

(** [tensor.size(dim)] for a non-negative [dim]: the size of that
    dimension, an [IndexError] when the tensor has no such dimension. *)
Definition Tensor_size (shape : list nat) (dim : nat) : result Z :=
  match nth_error shape dim with
  | Some n => Ok (Z.of_nat n)
  | None =>
      match shape with
      | [] => Raise (IndexError no_dimensions_msg)
      | _ :: _ => Raise (IndexError "Dimension out of range")
      end
  end.

(** [next(iter(xs), default)] on the sequence an iterator yields. *)
Definition next {A} (xs : list A) (default : A) : A :=
  match xs with
  | x :: _ => x
  | [] => default
  end.

(** [batch.values()] of a dict, and what iterating a mapping yields: its
    keys. *)
Definition dict_values (items : list (value * value)) : list value :=
  map snd items.

Definition mapping_keys (items : list (value * value)) : list value :=
  map fst items.

(** Nesting measure: the recursion of [extract_batch_size] follows the
    nesting of the batch. *)
Fixpoint value_size (v : value) : nat :=
  match v with
  | Dict items | Mapping items =>
      S ((fix items_size (l : list (value * value)) : nat :=
            match l with
            | [] => 0
            | (k, x) :: l' => value_size k + value_size x + items_size l'
            end) items)
  | Iterable elems =>
      S ((fix elems_size (l : list value) : nat :=
            match l with
            | [] => 0
            | x :: l' => value_size x + elems_size l'
            end) elems)
  | _ => 0
  end.

(** [extract_batch_size]: the arms are the source's [isinstance] tests in
    their order.  A [Mapping] that is not a [dict] fails the [dict] test and
    is taken by the [Iterable] test, whose [iter(batch)] yields keys. *)
Equations extract_batch_size (batch : value) : result Z
  by wf (value_size batch) lt :=
extract_batch_size (Tensor shape) := Tensor_size shape 0;
extract_batch_size (Str s) := Ok (Z.of_nat (String.length s));
extract_batch_size (Dict items) :=
  extract_batch_size (next (dict_values items) (Int 1));
extract_batch_size (Mapping items) :=
  extract_batch_size (next (mapping_keys items) (Int 1));
extract_batch_size (Iterable elems) :=
  extract_batch_size (next elems (Int 1));
extract_batch_size (Int _) := Ok 1%Z;
extract_batch_size NoneValue := Ok 1%Z;
extract_batch_size (Object _) := Ok 1%Z.
Next Obligation. destruct items as [|[k x] l]; simpl; lia. Qed.
Next Obligation. destruct items as [|[k x] l]; simpl; lia. Qed.
Next Obligation. destruct elems as [|x l]; simpl; lia. Qed.


(** ** Concrete inputs used in the examples below *)

Definition primary : world := mkWorld 0 0 [].

Definition worker (r : nat) : world := mkWorld (S r) 0 [].

(** A loader of a fixed number of batches over a dataset of the given
    kind. *)
Definition sized_loader (n : nat) (d : option Dataset) : DataLoader :=
  mkDataLoader (fun _ => Ok n) d.

(** A loader whose type has no [__len__]. *)
Definition unsized_loader : DataLoader :=
  mkDataLoader (fun _ => Raise (TypeError "object of type 'DataLoader' has no len()")) None.

(** A loader whose [__len__] fails for a reason of its own. *)
Definition broken_loader : DataLoader :=
  mkDataLoader (fun _ => Raise (RuntimeError "connection lost")) None.

(** ** Auxiliary definitions for the statements *)

(** The state after one length query. *)
Definition after_len (w : world) : world :=
  mkWorld (rank w) (S (len_calls w)) (warnings w).

(** The state after [rank_zero_warn msg]. *)
Definition after_warn (msg : string) (w : world) : world :=
  if Nat.eqb (rank w) 0
  then mkWorld (rank w) (len_calls w) (warnings w ++ [msg])
  else w.

(** The two exceptions of the length query that [has_len] takes for the
    answer that there is no length. *)
Definition unsupported_length (e : exn) : bool :=
  isinstance_exn e "TypeError" || isinstance_exn e "NotImplementedError".

(** The same loader without its [dataset] attribute. *)
Definition without_dataset (dataloader : DataLoader) : DataLoader :=
  mkDataLoader (dl_len dataloader) None.

(** A loader whose length query answers [first] the first time it is
    asked and [later] from then on. *)
Definition changing_loader (first later : result nat) (d : option Dataset)
  : DataLoader :=
  mkDataLoader (fun k => if Nat.eqb k 0 then first else later) d.

(** Whether a tensor or a string occurs anywhere in a batch, keys
    included. *)
Fixpoint contains_tensor_or_str (v : value) : bool :=
  match v with
  | Tensor _ | Str _ => true
  | Dict items | Mapping items =>
      (fix any_item (l : list (value * value)) : bool :=
         match l with
         | [] => false
         | (k, x) :: l' =>
             contains_tensor_or_str k || contains_tensor_or_str x || any_item l'
         end) items
  | Iterable elems =>
      (fix any_elem (l : list value) : bool :=
         match l with
         | [] => false
         | x :: l' => contains_tensor_or_str x || any_elem l'
         end) elems
  | Int _ | NoneValue | Object _ => false
  end.

(** [batch] wrapped [n] times in a one-element list. *)
Definition nested (n : nat) (batch : value) : value :=
  Nat.iter n (fun b => Iterable [b]) batch.

(** * Properties *)

Ltac run_py :=
  unfold get_len, has_len, has_iterable_dataset, getattr_dataset,
    hasattr_dataset, try_except, rank_zero_warn, py_len, bind, ret, raise,
    after_warn, after_len;
  cbn [fst snd find_handler rank len_calls warnings dl_len dl_dataset].

(** ** [has_iterable_dataset] *)

Lemma has_iterable_dataset_run (dataloader : DataLoader) (w : world) :
  has_iterable_dataset dataloader w =
  (Ok match dl_dataset dataloader with
      | Some IterableDataset => true
      | _ => false
      end, w).
Proof.
  run_py. destruct (dl_dataset dataloader) as [[|]|]; reflexivity.
Qed.

(** ** [has_len], one lemma per outcome of the length query *)

Section HasLenRuns.
Variable dataloader : DataLoader.
Variable w : world.

Lemma has_len_run_positive (n : nat) :
  dl_len dataloader (len_calls w) = Ok (S n) ->
  has_len dataloader w =
  (Ok true,
   match dl_dataset dataloader with
   | Some IterableDataset => after_warn iterable_len_msg (after_len w)
   | _ => after_len w
   end).
Proof.
  intros Hlen. run_py. rewrite Hlen. cbn.
  destruct (dl_dataset dataloader) as [[|]|]; cbn; try reflexivity.
  destruct (Nat.eqb (rank w) 0); reflexivity.
Qed.

Lemma has_len_run_zero :
  dl_len dataloader (len_calls w) = Ok 0 ->
  has_len dataloader w = (Raise (ValueError zero_length_msg), after_len w).
Proof.
  intros Hlen. run_py. rewrite Hlen. reflexivity.
Qed.

Lemma has_len_run_unsupported (e : exn) :
  dl_len dataloader (len_calls w) = Raise e ->
  unsupported_length e = true ->
  has_len dataloader w = (Ok false, after_len w).
Proof.
  intros Hlen He. run_py. rewrite Hlen. unfold unsupported_length in He.
  destruct (isinstance_exn e "TypeError"); [reflexivity|].
  cbn in He. rewrite He. reflexivity.
Qed.

Lemma has_len_run_other (e : exn) :
  dl_len dataloader (len_calls w) = Raise e ->
  unsupported_length e = false ->
  has_len dataloader w = (Raise e, after_len w).
Proof.
  intros Hlen He. run_py. rewrite Hlen. unfold unsupported_length in He.
  apply orb_false_elim in He as [-> ->]. reflexivity.
Qed.

(** What [get_len] does after [has_len] returned. *)
Lemma get_len_run :
  get_len dataloader w =
  match has_len dataloader w with
  | (Ok true, w') =>
      match dl_len dataloader (len_calls w') with
      | Ok n => (Ok (Finite n), after_len w')
      | Raise e => (Raise e, after_len w')
      end
  | (Ok false, w') => (Ok PosInf, w')
  | (Raise e, w') => (Raise e, w')
  end.
Proof.
  unfold get_len, bind at 1.
  destruct (has_len dataloader w) as [[[|]|e] w']; reflexivity.
Qed.
End HasLenRuns.

Lemma after_warn_len_calls (msg : string) (w : world) :
  len_calls (after_warn msg w) = len_calls w.
Proof. unfold after_warn. destruct (Nat.eqb (rank w) 0); reflexivity. Qed.

Lemma has_len_len_calls (dataloader : DataLoader) (w : world) :
  len_calls (snd (has_len dataloader w)) = S (len_calls w).
Proof.
  destruct (dl_len dataloader (len_calls w)) as [[|n]|e] eqn:Hlen.
  - rewrite (has_len_run_zero _ _ Hlen). reflexivity.
  - rewrite (has_len_run_positive _ _ _ Hlen).
    destruct (dl_dataset dataloader) as [[|]|]; cbn [snd];
      rewrite ?after_warn_len_calls; reflexivity.
  - destruct (unsupported_length e) eqn:He.
    + rewrite (has_len_run_unsupported _ _ _ Hlen He). reflexivity.
    + rewrite (has_len_run_other _ _ _ Hlen He). reflexivity.
Qed.

(** ** Claims about [has_len] and [get_len] *)

(** C1: on a data loader whose length query always succeeds with the same
    positive integer [N], [has_len] returns [True] and [get_len] returns the
    integer [N]; [get_len] asks for the length a second time after the check
    made by [has_len]. *)
Theorem get_len_positive (dataloader : DataLoader) (N : nat) (w : world) :
  (forall k, dl_len dataloader k = Ok N) ->
  0 < N ->
  fst (has_len dataloader w) = Ok true /\
  fst (get_len dataloader w) = Ok (Finite N) /\
  len_calls (snd (get_len dataloader w)) = len_calls w + 2.
Proof.
  intros Hlen Hpos. destruct N as [|n]; [lia|].
  pose proof (has_len_len_calls dataloader w) as Hcalls.
  rewrite get_len_run.
  rewrite (has_len_run_positive dataloader w n (Hlen _)) in *.
  cbn [fst snd] in *. rewrite Hlen.
  cbn [fst snd after_len len_calls]. rewrite Hcalls.
  repeat split; lia.
Qed.

Lemma get_len_positive_witness :
  fst (has_len (sized_loader 5 (Some MapDataset)) primary) = Ok true /\
  fst (get_len (sized_loader 5 (Some MapDataset)) primary) = Ok (Finite 5) /\
  len_calls (snd (get_len (sized_loader 5 (Some MapDataset)) primary)) = 2.
Proof.
  apply (get_len_positive (sized_loader 5 (Some MapDataset)) 5 primary).
  - intros k. reflexivity.
  - lia.
Defined.

(** C2: on a data loader whose length query succeeds with zero, [has_len]
    raises the [ValueError] asking for at least one batch, and so does
    [get_len]; the outcome is never the answer [False]. *)
Theorem has_len_zero_raises (dataloader : DataLoader) (w : world) :
  dl_len dataloader (len_calls w) = Ok 0 ->
  fst (has_len dataloader w) = Raise (ValueError zero_length_msg) /\
  fst (get_len dataloader w) = Raise (ValueError zero_length_msg) /\
  fst (has_len dataloader w) <> Ok false /\
  isinstance_exn (ValueError zero_length_msg) "ValueError" = true /\
  unsupported_length (ValueError zero_length_msg) = false.
Proof.
  intros Hlen. rewrite get_len_run, (has_len_run_zero dataloader w Hlen).
  cbn [fst]. repeat split; try reflexivity. discriminate.
Qed.

Lemma has_len_zero_raises_witness :
  fst (has_len (sized_loader 0 None) primary) = Raise (ValueError zero_length_msg) /\
  fst (get_len (sized_loader 0 None) primary) = Raise (ValueError zero_length_msg) /\
  fst (has_len (sized_loader 0 None) primary) <> Ok false /\
  isinstance_exn (ValueError zero_length_msg) "ValueError" = true /\
  unsupported_length (ValueError zero_length_msg) = false.
Proof.
  apply (has_len_zero_raises (sized_loader 0 None) primary). reflexivity.
Defined.

(** C3: [has_len] returns [False] exactly when the length query raises an
    instance of [TypeError] or of [NotImplementedError], and [get_len] then
    returns positive infinity; any other exception of the length query
    leaves [has_len] and [get_len] as it was raised. *)
Theorem has_len_false_iff (dataloader : DataLoader) (w : world) :
  (fst (has_len dataloader w) = Ok false <->
   exists e, dl_len dataloader (len_calls w) = Raise e /\
             unsupported_length e = true) /\
  (fst (has_len dataloader w) = Ok false ->
   fst (get_len dataloader w) = Ok PosInf) /\
  (forall e, dl_len dataloader (len_calls w) = Raise e ->
             unsupported_length e = false ->
             fst (has_len dataloader w) = Raise e /\
             fst (get_len dataloader w) = Raise e).
Proof.
  rewrite get_len_run.
  destruct (dl_len dataloader (len_calls w)) as [[|n]|e] eqn:Hlen.
  - rewrite (has_len_run_zero dataloader w Hlen). cbn [fst].
    split; [split|split].
    + discriminate.
    + intros [e [He _]]. discriminate He.
    + discriminate.
    + intros e He. discriminate He.
  - rewrite (has_len_run_positive dataloader w n Hlen). cbn [fst].
    split; [split|split].
    + discriminate.
    + intros [e [He _]]. discriminate He.
    + discriminate.
    + intros e He. discriminate He.
  - destruct (unsupported_length e) eqn:He.
    + rewrite (has_len_run_unsupported dataloader w e Hlen He). cbn [fst].
      split; [split|split].
      * intros _. exists e. split; [reflexivity | exact He].
      * reflexivity.
      * reflexivity.
      * intros e' [= <-] He'. congruence.
    + rewrite (has_len_run_other dataloader w e Hlen He). cbn [fst].
      split; [split|split].
      * discriminate.
      * intros [e' [[= <-] He']]. congruence.
      * discriminate.
      * intros e' [= <-] _. split; reflexivity.
Qed.

Lemma has_len_false_iff_witness :
  (fst (has_len unsized_loader primary) = Ok false /\
   fst (get_len unsized_loader primary) = Ok PosInf) /\
  (fst (has_len broken_loader primary) = Raise (RuntimeError "connection lost") /\
   fst (get_len broken_loader primary) = Raise (RuntimeError "connection lost")).
Proof.
  split.
  - destruct (has_len_false_iff unsized_loader primary) as [Hiff [Hinf _]].
    assert (Hfalse : fst (has_len unsized_loader primary) = Ok false).
    { apply Hiff.
      exists (TypeError "object of type 'DataLoader' has no len()").
      split; reflexivity. }
    split; [exact Hfalse | exact (Hinf Hfalse)].
  - destruct (has_len_false_iff broken_loader primary) as [_ [_ Hother]].
    apply (Hother (RuntimeError "connection lost")); reflexivity.
Defined.

(** C8: when [has_len] returns [True] and the data loader's dataset is an
    [IterableDataset], [has_len] hands exactly one warning to
    [rank_zero_warn], which shows it on the primary process only; in every
    other case the warnings are left as they were.  The value returned is
    the one returned for the same loader without a dataset, so the warning
    does not change it. *)
Theorem has_len_warning (dataloader : DataLoader) (w : world) :
  (fst (has_len dataloader w) = Ok true ->
   dl_dataset dataloader = Some IterableDataset ->
   warnings (snd (has_len dataloader w)) =
   if Nat.eqb (rank w) 0
   then (warnings w ++ [iterable_len_msg])%list
   else warnings w) /\
  (~ (fst (has_len dataloader w) = Ok true /\
      dl_dataset dataloader = Some IterableDataset) ->
   warnings (snd (has_len dataloader w)) = warnings w) /\
  fst (has_len dataloader w) = fst (has_len (without_dataset dataloader) w).
Proof.
  destruct (dl_len dataloader (len_calls w)) as [[|n]|e] eqn:Hlen.
  - rewrite (has_len_run_zero dataloader w Hlen),
      (has_len_run_zero (without_dataset dataloader) w Hlen).
    cbn [fst snd]. repeat split; try reflexivity. discriminate.
  - rewrite (has_len_run_positive dataloader w n Hlen),
      (has_len_run_positive (without_dataset dataloader) w n Hlen).
    cbn [fst snd]. repeat split.
    + intros _ ->. unfold after_warn, after_len. cbn [rank warnings len_calls].
      destruct (Nat.eqb (rank w) 0); reflexivity.
    + intros Hnot. destruct (dl_dataset dataloader) as [[|]|]; try reflexivity.
      exfalso. apply Hnot. split; reflexivity.
  - destruct (unsupported_length e) eqn:He.
    + rewrite (has_len_run_unsupported dataloader w e Hlen He),
        (has_len_run_unsupported (without_dataset dataloader) w e Hlen He).
      cbn [fst snd]. repeat split; try reflexivity. discriminate.
    + rewrite (has_len_run_other dataloader w e Hlen He),
        (has_len_run_other (without_dataset dataloader) w e Hlen He).
      cbn [fst snd]. repeat split; try reflexivity. discriminate.
Qed.

Lemma has_len_warning_witness :
  warnings (snd (has_len (sized_loader 10 (Some IterableDataset)) primary)) =
    [iterable_len_msg] /\
  warnings (snd (has_len (sized_loader 10 (Some IterableDataset)) (worker 2))) = [] /\
  warnings (snd (has_len (sized_loader 10 (Some MapDataset)) primary)) = [].
Proof.
  split; [|split].
  - destruct (has_len_warning (sized_loader 10 (Some IterableDataset)) primary)
      as [Hwarn _].
    apply Hwarn; reflexivity.
  - destruct (has_len_warning (sized_loader 10 (Some IterableDataset)) (worker 2))
      as [Hwarn _].
    apply Hwarn; reflexivity.
  - destruct (has_len_warning (sized_loader 10 (Some MapDataset)) primary)
      as [_ [Hquiet _]].
    apply Hquiet. intros [_ Hds]. discriminate Hds.
Defined.

(** C9: [has_iterable_dataset] returns [True] if and only if the data
    loader has a [dataset] attribute whose value is an [IterableDataset];
    it returns [False] when the attribute is missing or the dataset is of
    the sized kind; it never raises and leaves the state as it was. *)
Theorem has_iterable_dataset_iff (dataloader : DataLoader) (w : world) :
  (exists b, has_iterable_dataset dataloader w = (Ok b, w)) /\
  (fst (has_iterable_dataset dataloader w) = Ok true <->
   hasattr_dataset dataloader = true /\
   exists d, dl_dataset dataloader = Some d /\
             isinstance_IterableDataset d = true) /\
  (dl_dataset dataloader = None \/ dl_dataset dataloader = Some MapDataset ->
   fst (has_iterable_dataset dataloader w) = Ok false).
Proof.
  rewrite has_iterable_dataset_run. unfold hasattr_dataset. cbn [fst].
  destruct (dl_dataset dataloader) as [[|]|].
  - split; [eexists; reflexivity|]. split.
    + split; [|reflexivity]. intros _. split; [reflexivity|].
      exists IterableDataset. split; reflexivity.
    + intros [H|H]; discriminate H.
  - split; [eexists; reflexivity|]. split.
    + split; [discriminate|]. intros [_ [d [[= <-] Hd]]]. discriminate Hd.
    + reflexivity.
  - split; [eexists; reflexivity|]. split.
    + split; [discriminate|]. intros [H _]. discriminate H.
    + reflexivity.
Qed.

Lemma has_iterable_dataset_iff_witness :
  fst (has_iterable_dataset (sized_loader 3 (Some IterableDataset)) primary) = Ok true /\
  fst (has_iterable_dataset (sized_loader 3 (Some MapDataset)) primary) = Ok false /\
  fst (has_iterable_dataset unsized_loader primary) = Ok false.
Proof.
  split; [|split].
  - destruct (has_iterable_dataset_iff (sized_loader 3 (Some IterableDataset)) primary)
      as [_ [Hiff _]].
    apply Hiff. split; [reflexivity|].
    exists IterableDataset. split; reflexivity.
  - destruct (has_iterable_dataset_iff (sized_loader 3 (Some MapDataset)) primary)
      as [_ [_ Hfalse]].
    apply Hfalse. right. reflexivity.
  - destruct (has_iterable_dataset_iff unsized_loader primary)
      as [_ [_ Hfalse]].
    apply Hfalse. left. reflexivity.
Defined.

(** C10: [get_len] inherits the warning of [has_len]: on a data loader with
    a positive length and an [IterableDataset], [get_len] returns the
    integer length and the warning has been given to [rank_zero_warn] by the
    time the length is asked for again; it shows on the primary process. *)
Theorem get_len_warning (dataloader : DataLoader) (N : nat) (w : world) :
  (forall k, dl_len dataloader k = Ok N) ->
  0 < N ->
  dl_dataset dataloader = Some IterableDataset ->
  fst (get_len dataloader w) = Ok (Finite N) /\
  warnings (snd (has_len dataloader w)) = warnings (snd (get_len dataloader w)) /\
  warnings (snd (get_len dataloader w)) =
  if Nat.eqb (rank w) 0
  then (warnings w ++ [iterable_len_msg])%list
  else warnings w.
Proof.
  intros Hlen Hpos Hds. destruct N as [|n]; [lia|].
  rewrite get_len_run.
  rewrite (has_len_run_positive dataloader w n (Hlen _)), Hds.
  rewrite Hlen. cbn [fst snd after_len warnings].
  unfold after_warn, after_len. cbn [rank warnings len_calls].
  destruct (Nat.eqb (rank w) 0); repeat split; reflexivity.
Qed.

Lemma get_len_warning_witness :
  fst (get_len (sized_loader 10 (Some IterableDataset)) primary) = Ok (Finite 10) /\
  warnings (snd (has_len (sized_loader 10 (Some IterableDataset)) primary)) =
  warnings (snd (get_len (sized_loader 10 (Some IterableDataset)) primary)) /\
  warnings (snd (get_len (sized_loader 10 (Some IterableDataset)) primary)) =
  [iterable_len_msg].
Proof.
  apply (get_len_warning (sized_loader 10 (Some IterableDataset)) 10 primary).
  - intros k. reflexivity.
  - lia.
  - reflexivity.
Defined.

(** ** [extract_batch_size] *)

(** The nested examples of the specification. *)
Example ex_nested_dict :
  extract_batch_size (Dict [(Str "a", Tensor [4]); (Str "b", Tensor [9])]) = Ok 4%Z.
Proof. reflexivity. Qed.

Example ex_nested_list :
  extract_batch_size (Iterable [Iterable [Tensor [7]]]) = Ok 7%Z.
Proof. reflexivity. Qed.

(** The [dict] arm: the first value in insertion order, [1] for an empty
    dict. *)
Lemma extract_batch_size_dict (items : list (value * value)) :
  extract_batch_size (Dict items) =
  match items with
  | (_, v) :: _ => extract_batch_size v
  | [] => Ok 1%Z
  end.
Proof.
  simp extract_batch_size.
  destruct items as [|[k v] rest]; cbn [next dict_values map snd].
  - now simp extract_batch_size.
  - reflexivity.
Qed.

(** A mapping that is not a [dict] is read through [iter]: the first key,
    [1] when it is empty. *)
Lemma extract_batch_size_mapping (items : list (value * value)) :
  extract_batch_size (Mapping items) =
  match items with
  | (k, _) :: _ => extract_batch_size k
  | [] => Ok 1%Z
  end.
Proof.
  simp extract_batch_size.
  destruct items as [|[k v] rest]; cbn [next mapping_keys map fst].
  - now simp extract_batch_size.
  - reflexivity.
Qed.

(** Values without [__iter__] take the final [return 1]. *)
Lemma extract_batch_size_default :
  (forall z, extract_batch_size (Int z) = Ok 1%Z) /\
  extract_batch_size NoneValue = Ok 1%Z /\
  (forall name, extract_batch_size (Object name) = Ok 1%Z).
Proof.
  repeat split; intros; now simp extract_batch_size.
Qed.


(** C4: the claim holds on a [dict] ([extract_batch_size_dict]) but not on
    every mapping: a mapping whose type does not derive from [dict] is
    taken by the [Iterable] arm, which recurses on the first key.  For the
    read-only view of [{"ab": tensor of 4 rows}] the function returns the
    length 2 of the key, while the first value has batch size 4. *)
Theorem extract_batch_size_mapping_first_key :
  extract_batch_size (Mapping [(Str "ab", Tensor [4])]) = Ok 2%Z /\
  extract_batch_size (Tensor [4]) = Ok 4%Z /\
  extract_batch_size (Dict [(Str "ab", Tensor [4])]) = Ok 4%Z.
Proof.
  rewrite extract_batch_size_mapping, extract_batch_size_dict.
  simp extract_batch_size. split; [|split]; reflexivity.
Qed.

(** C5: for an iterable that is neither a tensor, a string nor a mapping,
    [extract_batch_size] is [extract_batch_size] of the first element its
    iterator yields, and [1] when it yields none. *)
Theorem extract_batch_size_iterable (elems : list value) :
  extract_batch_size (Iterable elems) =
  match elems with
  | x :: _ => extract_batch_size x
  | [] => Ok 1%Z
  end.
Proof.
  simp extract_batch_size.
  destruct elems as [|x rest]; cbn [next].
  - now simp extract_batch_size.
  - reflexivity.
Qed.

(** C6: for a tensor whose leading dimension has size [N],
    [extract_batch_size] returns [N]; for a string it returns the number of
    characters. *)
Theorem extract_batch_size_tensor_str :
  (forall (N : nat) (rest : list nat),
      extract_batch_size (Tensor (N :: rest)) = Ok (Z.of_nat N)) /\
  (forall s : string,
      extract_batch_size (Str s) = Ok (Z.of_nat (String.length s))).
Proof.
  split; intros; now simp extract_batch_size.
Qed.

(** C7: [extract_batch_size] does fail on a finite, acyclic batch: a tensor
    without dimensions passes the [torch.Tensor] test and [size(0)] raises
    [IndexError], alone or as the first leaf of a nested batch.  Values
    without iteration support do return [1]
    ([extract_batch_size_default]), and no other failure exists
    ([extract_batch_size_outcome]). *)
Theorem extract_batch_size_scalar_tensor_raises :
  extract_batch_size (Tensor []) = Raise (IndexError no_dimensions_msg) /\
  extract_batch_size (Dict [(Str "loss", Tensor []); (Str "x", Tensor [8; 3])]) =
    Raise (IndexError no_dimensions_msg) /\
  extract_batch_size (Iterable [Tensor []; Tensor [8; 3]]) =
    Raise (IndexError no_dimensions_msg).
Proof.
  split; [|split]; reflexivity.
Qed.

(** ** Further properties of [has_len] and [get_len] *)

(** On a loader whose length query always has the same outcome, the
    result of [get_len] is a function of that outcome alone. *)
Lemma get_len_stable (dataloader : DataLoader) (r : result nat) (w : world) :
  (forall k, dl_len dataloader k = r) ->
  fst (get_len dataloader w) =
  match r with
  | Ok 0 => Raise (ValueError zero_length_msg)
  | Ok (S n) => Ok (Finite (S n))
  | Raise e => if unsupported_length e then Ok PosInf else Raise e
  end.
Proof.
  intros Hlen. rewrite get_len_run. destruct r as [[|n]|e].
  - rewrite (has_len_run_zero dataloader w (Hlen _)). reflexivity.
  - rewrite (has_len_run_positive dataloader w n (Hlen _)), Hlen. reflexivity.
  - destruct (unsupported_length e) eqn:He.
    + rewrite (has_len_run_unsupported dataloader w e (Hlen _) He). reflexivity.
    + rewrite (has_len_run_other dataloader w e (Hlen _) He). reflexivity.
Qed.

Lemma after_warn_rank (msg : string) (w : world) :
  rank (after_warn msg w) = rank w.
Proof. unfold after_warn. destruct (Nat.eqb (rank w) 0); reflexivity. Qed.

Lemma has_len_rank (dataloader : DataLoader) (w : world) :
  rank (snd (has_len dataloader w)) = rank w.
Proof.
  destruct (dl_len dataloader (len_calls w)) as [[|n]|e] eqn:Hlen.
  - rewrite (has_len_run_zero _ _ Hlen). reflexivity.
  - rewrite (has_len_run_positive _ _ _ Hlen).
    destruct (dl_dataset dataloader) as [[|]|]; cbn [snd];
      rewrite ?after_warn_rank; reflexivity.
  - destruct (unsupported_length e) eqn:He.
    + rewrite (has_len_run_unsupported _ _ _ Hlen He). reflexivity.
    + rewrite (has_len_run_other _ _ _ Hlen He). reflexivity.
Qed.

(** X1: [has_len] asks for the length exactly once, whatever the outcome;
    [get_len] asks twice when [has_len] returned [True] and once otherwise.
    Neither changes the rank of the process. *)
Theorem has_len_queries_once (dataloader : DataLoader) (w : world) :
  len_calls (snd (has_len dataloader w)) = S (len_calls w) /\
  rank (snd (has_len dataloader w)) = rank w /\
  len_calls (snd (get_len dataloader w)) =
    match fst (has_len dataloader w) with
    | Ok true => S (S (len_calls w))
    | _ => S (len_calls w)
    end /\
  rank (snd (get_len dataloader w)) = rank w.
Proof.
  pose proof (has_len_len_calls dataloader w) as Hcalls.
  pose proof (has_len_rank dataloader w) as Hrank.
  rewrite get_len_run.
  destruct (has_len dataloader w) as [[[|]|e] w']; cbn [fst snd] in *.
  - destruct (dl_len dataloader (len_calls w'));
      cbn [snd after_len len_calls rank]; rewrite Hcalls; auto.
  - auto.
  - auto.
Qed.

(** X2: the second length query of [get_len] is outside the guards of
    [has_len]: once the first query returned a positive integer, [get_len]
    returns whatever the second query returns, zero included, and an
    exception of the second query, a [TypeError] included, is raised to the
    caller. *)
Theorem get_len_second_query (dataloader : DataLoader) (w : world) (n : nat) :
  dl_len dataloader (len_calls w) = Ok (S n) ->
  fst (get_len dataloader w) =
  match dl_len dataloader (S (len_calls w)) with
  | Ok m => Ok (Finite m)
  | Raise e => Raise e
  end.
Proof.
  intros Hlen.
  pose proof (has_len_len_calls dataloader w) as Hcalls.
  rewrite get_len_run.
  rewrite (has_len_run_positive dataloader w n Hlen) in *.
  cbn [snd] in Hcalls. rewrite Hcalls.
  destruct (dl_len dataloader (S (len_calls w))); reflexivity.
Qed.

Lemma get_len_second_query_witness :
  fst (get_len (changing_loader (Ok 3) (Ok 0) None) primary) = Ok (Finite 0) /\
  fst (get_len (changing_loader (Ok 3) (Raise (TypeError "no len()")) None) primary) =
    Raise (TypeError "no len()").
Proof.
  split.
  - apply (get_len_second_query (changing_loader (Ok 3) (Ok 0) None) primary 2).
    reflexivity.
  - apply (get_len_second_query
             (changing_loader (Ok 3) (Raise (TypeError "no len()")) None) primary 2).
    reflexivity.
Defined.

(** X3: on a loader whose length query always has the same outcome,
    [get_len] never returns zero: it returns a positive integer or infinity,
    or it raises. *)
Theorem get_len_stable_positive (dataloader : DataLoader) (r : result nat)
    (w : world) (n : nat) :
  (forall k, dl_len dataloader k = r) ->
  fst (get_len dataloader w) = Ok (Finite n) ->
  0 < n /\ r = Ok n.
Proof.
  intros Hlen. rewrite (get_len_stable dataloader r w Hlen).
  destruct r as [[|m]|e].
  - discriminate.
  - intros [= <-]. split; [lia | reflexivity].
  - destruct (unsupported_length e); discriminate.
Qed.

Lemma get_len_stable_positive_witness :
  0 < 5 /\ @Ok nat 5 = Ok 5.
Proof.
  apply (get_len_stable_positive (sized_loader 5 None) (Ok 5) primary 5).
  - intros k. reflexivity.
  - reflexivity.
Defined.

(** X4: on a loader whose length query always has the same outcome, a
    second call of [get_len] returns what the first call returned. *)
Theorem get_len_idempotent (dataloader : DataLoader) (r : result nat) (w : world) :
  (forall k, dl_len dataloader k = r) ->
  fst (get_len dataloader (snd (get_len dataloader w))) =
  fst (get_len dataloader w).
Proof.
  intros Hlen.
  rewrite (get_len_stable dataloader r _ Hlen),
    (get_len_stable dataloader r w Hlen).
  reflexivity.
Qed.

Lemma get_len_idempotent_witness :
  fst (get_len (sized_loader 5 (Some IterableDataset))
         (snd (get_len (sized_loader 5 (Some IterableDataset)) primary))) =
  fst (get_len (sized_loader 5 (Some IterableDataset)) primary).
Proof.
  apply (get_len_idempotent (sized_loader 5 (Some IterableDataset)) (Ok 5) primary).
  intros k. reflexivity.
Defined.

(** X5: [get_len] returns infinity exactly when [has_len] returns [False];
    it returns an integer only when [has_len] returned [True]; and when
    [has_len] raises, [get_len] raises the same exception without asking for
    the length again. *)
Theorem get_len_follows_has_len (dataloader : DataLoader) (w : world) :
  (fst (get_len dataloader w) = Ok PosInf <->
   fst (has_len dataloader w) = Ok false) /\
  (forall n, fst (get_len dataloader w) = Ok (Finite n) ->
             fst (has_len dataloader w) = Ok true) /\
  (forall e, fst (has_len dataloader w) = Raise e ->
             get_len dataloader w = (Raise e, snd (has_len dataloader w))).
Proof.
  rewrite get_len_run.
  destruct (has_len dataloader w) as [[[|]|e] w']; cbn [fst snd].
  - destruct (dl_len dataloader (len_calls w')); cbn [fst].
    + split; [split; discriminate|]. split; [reflexivity | discriminate].
    + split; [split; discriminate|]. split; discriminate.
  - split; [split; reflexivity|]. split; discriminate.
  - split; [split; discriminate|]. split; [discriminate|].
    intros e' [= <-]. reflexivity.
Qed.

Lemma get_len_follows_has_len_witness :
  fst (get_len unsized_loader primary) = Ok PosInf /\
  fst (has_len (sized_loader 5 None) primary) = Ok true /\
  get_len broken_loader primary =
    (Raise (RuntimeError "connection lost"), snd (has_len broken_loader primary)).
Proof.
  split; [|split].
  - destruct (get_len_follows_has_len unsized_loader primary) as [Hiff _].
    apply Hiff. reflexivity.
  - destruct (get_len_follows_has_len (sized_loader 5 None) primary)
      as [_ [Hint _]].
    apply (Hint 5). reflexivity.
  - destruct (get_len_follows_has_len broken_loader primary) as [_ [_ Hraise]].
    apply Hraise. reflexivity.
Defined.

(** X6: what [has_len] and [get_len] return does not depend on the rank of
    the process nor on the warnings given so far: two processes that have
    asked the loader for its length equally often get the same outcome. *)
Theorem has_len_rank_independent (dataloader : DataLoader) (w1 w2 : world) :
  len_calls w1 = len_calls w2 ->
  fst (has_len dataloader w1) = fst (has_len dataloader w2) /\
  fst (get_len dataloader w1) = fst (get_len dataloader w2).
Proof.
  intros Hcalls.
  pose proof (has_len_len_calls dataloader w1) as H1.
  pose proof (has_len_len_calls dataloader w2) as H2.
  rewrite !get_len_run.
  destruct (dl_len dataloader (len_calls w1)) as [[|n]|e] eqn:Hlen1;
    pose proof Hlen1 as Hlen2; rewrite Hcalls in Hlen2.
  - rewrite (has_len_run_zero _ _ Hlen1), (has_len_run_zero _ _ Hlen2).
    split; reflexivity.
  - rewrite (has_len_run_positive _ _ _ Hlen1) in *.
    rewrite (has_len_run_positive _ _ _ Hlen2) in *.
    cbn [fst snd] in *. rewrite H1, H2, Hcalls.
    split; [reflexivity|].
    destruct (dl_len dataloader (S (len_calls w2))); reflexivity.
  - destruct (unsupported_length e) eqn:He.
    + rewrite (has_len_run_unsupported _ _ _ Hlen1 He),
        (has_len_run_unsupported _ _ _ Hlen2 He).
      split; reflexivity.
    + rewrite (has_len_run_other _ _ _ Hlen1 He),
        (has_len_run_other _ _ _ Hlen2 He).
      split; reflexivity.
Qed.

Lemma has_len_rank_independent_witness :
  fst (has_len (sized_loader 10 (Some IterableDataset)) primary) =
  fst (has_len (sized_loader 10 (Some IterableDataset)) (worker 2)) /\
  fst (get_len (sized_loader 10 (Some IterableDataset)) primary) =
  fst (get_len (sized_loader 10 (Some IterableDataset)) (worker 2)).
Proof.
  apply (has_len_rank_independent
           (sized_loader 10 (Some IterableDataset)) primary (worker 2)).
  reflexivity.
Defined.

(** X7: the warning is given again on every call: on the primary process,
    two calls of [get_len] on a loader with a positive length and an
    [IterableDataset] leave two copies of the message after the warnings
    that were there before. *)
Theorem get_len_warns_each_call (dataloader : DataLoader) (N : nat) (w : world) :
  (forall k, dl_len dataloader k = Ok N) ->
  0 < N ->
  dl_dataset dataloader = Some IterableDataset ->
  rank w = 0 ->
  warnings (snd (get_len dataloader (snd (get_len dataloader w)))) =
  (warnings w ++ [iterable_len_msg; iterable_len_msg])%list.
Proof.
  intros Hlen Hpos Hds Hrank. destruct N as [|n]; [lia|].
  assert (Hstep : forall w', rank w' = 0 ->
            rank (snd (get_len dataloader w')) = 0 /\
            warnings (snd (get_len dataloader w')) =
            (warnings w' ++ [iterable_len_msg])%list).
  { intros w' Hr. rewrite get_len_run.
    rewrite (has_len_run_positive dataloader w' n (Hlen _)), Hds, Hlen.
    unfold after_warn, after_len. cbn [rank len_calls warnings snd].
    rewrite Hr. cbn. split; reflexivity. }
  destruct (Hstep w Hrank) as [Hr1 Hw1].
  destruct (Hstep _ Hr1) as [_ Hw2].
  rewrite Hw2, Hw1, <- app_assoc. reflexivity.
Qed.

Lemma get_len_warns_each_call_witness :
  warnings (snd (get_len (sized_loader 10 (Some IterableDataset))
                   (snd (get_len (sized_loader 10 (Some IterableDataset)) primary)))) =
  [iterable_len_msg; iterable_len_msg].
Proof.
  apply (get_len_warns_each_call (sized_loader 10 (Some IterableDataset)) 10 primary).
  - intros k. reflexivity.
  - lia.
  - reflexivity.
  - reflexivity.
Defined.

(** X8: [has_len] returns [True] exactly when the length query returns a
    positive integer, whatever the dataset is, and it raises exactly when
    the query returned zero or raised an exception that is an instance of
    neither [TypeError] nor [NotImplementedError]. *)
Theorem has_len_true_iff (dataloader : DataLoader) (w : world) :
  (fst (has_len dataloader w) = Ok true <->
   exists n, dl_len dataloader (len_calls w) = Ok (S n)) /\
  (forall e, fst (has_len dataloader w) = Raise e <->
             (dl_len dataloader (len_calls w) = Ok 0 /\
              e = ValueError zero_length_msg) \/
             (dl_len dataloader (len_calls w) = Raise e /\
              unsupported_length e = false)).
Proof.
  destruct (dl_len dataloader (len_calls w)) as [[|n]|e] eqn:Hlen.
  - rewrite (has_len_run_zero dataloader w Hlen). cbn [fst]. split.
    + split; [discriminate|]. intros [n Hn]. discriminate Hn.
    + intros e. split.
      * intros [= <-]. left. split; reflexivity.
      * intros [[_ ->]|[He _]]; [reflexivity | discriminate He].
  - rewrite (has_len_run_positive dataloader w n Hlen). cbn [fst]. split.
    + split; [|reflexivity]. intros _. exists n. reflexivity.
    + intros e. split; [discriminate|].
      intros [[He _]|[He _]]; discriminate He.
  - destruct (unsupported_length e) eqn:He.
    + rewrite (has_len_run_unsupported dataloader w e Hlen He). cbn [fst]. split.
      * split; [discriminate|]. intros [n Hn]. discriminate Hn.
      * intros e'. split; [discriminate|].
        intros [[He' _]|[[= <-] He']]; [discriminate He' | congruence].
    + rewrite (has_len_run_other dataloader w e Hlen He). cbn [fst]. split.
      * split; [discriminate|]. intros [n Hn]. discriminate Hn.
      * intros e'. split.
        -- intros [= <-]. right. split; [reflexivity | exact He].
        -- intros [[He' _]|[[= <-] _]]; [discriminate He' | reflexivity].
Qed.

Lemma has_len_true_iff_witness :
  fst (has_len (sized_loader 5 (Some IterableDataset)) primary) = Ok true /\
  fst (has_len broken_loader primary) = Raise (RuntimeError "connection lost").
Proof.
  split.
  - destruct (has_len_true_iff (sized_loader 5 (Some IterableDataset)) primary)
      as [Hiff _].
    apply Hiff. exists 4. reflexivity.
  - destruct (has_len_true_iff broken_loader primary) as [_ Hraise].
    apply Hraise. right. split; reflexivity.
Defined.

(** ** Further properties of [extract_batch_size] *)

(** X9: wrapping a batch in one-element lists, however often, does not
    change its batch size, nor whether the extraction fails. *)
Theorem extract_batch_size_nested (n : nat) (batch : value) :
  extract_batch_size (nested n batch) = extract_batch_size batch.
Proof.
  induction n as [|n IH].
  - reflexivity.
  - change (nested (S n) batch) with (Iterable [nested n batch]).
    simp extract_batch_size. cbn [next]. exact IH.
Qed.

(** X10: a batch in which no tensor and no string occurs has batch size 1,
    whatever its shape and however many elements it holds: the length of a
    list of numbers is not its batch size. *)
Theorem extract_batch_size_without_tensor (batch : value) :
  contains_tensor_or_str batch = false ->
  extract_batch_size batch = Ok 1%Z.
Proof.
  funelim (extract_batch_size batch); simp extract_batch_size;
    intros Hnone; try discriminate Hnone; try reflexivity.
  - apply H. destruct items as [|[k v] rest]; [reflexivity|].
    cbn in Hnone. cbn [next dict_values map snd].
    apply orb_false_elim in Hnone as [Hkv _].
    apply orb_false_elim in Hkv as [_ Hv]. exact Hv.
  - apply H. destruct items as [|[k v] rest]; [reflexivity|].
    cbn in Hnone. cbn [next mapping_keys map fst].
    apply orb_false_elim in Hnone as [Hkv _].
    apply orb_false_elim in Hkv as [Hk _]. exact Hk.
  - apply H. destruct elems as [|x rest]; [reflexivity|].
    cbn in Hnone. cbn [next].
    apply orb_false_elim in Hnone as [Hx _]. exact Hx.
Qed.

Lemma extract_batch_size_without_tensor_witness :
  extract_batch_size
    (Iterable [Iterable [Int 3; Int 4; Int 5]; Iterable [Int 6; Int 7; Int 8]]) =
  Ok 1%Z.
Proof.
  apply (extract_batch_size_without_tensor
           (Iterable [Iterable [Int 3; Int 4; Int 5]; Iterable [Int 6; Int 7; Int 8]])).
  reflexivity.
Defined.


